(** * A shallow embedding of [main.py]: the realtime avatar bot

    The program wires a speech-to-avatar pipeline for each websocket
    connection.  What [main.py] itself decides is modelled here:

    - the module-level credential checks (lines 34-44);
    - the object graph that [run_bot] builds (lines 52-136): voice-activity
      parameters, transport, services, the ordered pipeline and its task;
    - the patched receive loop of the input transport (lines 73-84);
    - the two event handlers (lines 138-145);
    - the websocket entry point (lines 153-168);
    - the main block that starts the server (lines 182-185).

    Python objects that are constructed from library classes are records or
    constructors holding the arguments the source passes; what the library
    does with them afterwards is outside this file. *)

From Stdlib Require Import QArith.
From stdpp Require Import base option list strings gmap.

(** ** Python values, exceptions and outcomes *)

Module Py.

(** A [bytes] object. *)
Definition bytes : Type := list Byte.byte.

(** An exception instance: its class and the message it was built with. *)
Record PyException : Type := mkExc {
  exc_class : string;
  exc_message : string
}.

(** [ValueError(msg)], the only exception [main.py] constructs. *)
Definition ValueError (msg : string) : PyException :=
  {| exc_class := "ValueError"; exc_message := msg |}.

(** A call either returns a value or raises. *)
Inductive Outcome (A : Type) : Type :=
| Return (a : A)
| Raise (e : PyException).

Arguments Return {A} a.
Arguments Raise {A} e.

(** [os.getenv(name)]: [None] when the variable is unset. *)
Definition getenv (environ : gmap string string) (name : string)
  : option string :=
  environ !! name.

(** [not v] for [v : Optional[str]]: [None] and the empty string are falsy. *)
Definition py_not (v : option string) : bool :=
  match v with
  | None => true
  | Some s => bool_decide (s = "")
  end.

End Py.

Import Py.

(** ** Module start-up (lines 34-44) *)

(** The three module globals that [run_bot] reads. *)
Record Globals : Type := mkGlobals {
  deepgram_api_key : option string;
  openai_api_key : option string;
  elevenlabs_api_key : option string
}.

(** Executing the module body up to the definition of [run_bot]: each key is
    looked up and checked in turn; the first falsy one raises. *)
Definition module_startup (environ : gmap string string) : Outcome Globals :=
  let deepgram_api_key := getenv environ "DEEPGRAM_API_KEY" in
  if py_not deepgram_api_key
  then Raise (ValueError "DEEPGRAM_API_KEY must be set")
  else
    let openai_api_key := getenv environ "OPENAI_API_KEY" in
    if py_not openai_api_key
    then Raise (ValueError "OPENAI_API_KEY")
    else
      let elevenlabs_api_key := getenv environ "ELEVENLABS_API_KEY" in
      if py_not elevenlabs_api_key
      then Raise (ValueError "ELEVENLABS_API_KEY must be set")
      else Return {| deepgram_api_key := deepgram_api_key;
                     openai_api_key := openai_api_key;
                     elevenlabs_api_key := elevenlabs_api_key |}.

(** The names of the credentials the module requires. *)
Definition required_credentials : list string :=
  ["DEEPGRAM_API_KEY"; "OPENAI_API_KEY"; "ELEVENLABS_API_KEY"].

(** A credential is absent when the variable is not in the environment. *)
Definition absent (environ : gmap string string) (name : string) : Prop :=
  environ !! name = None.

(** ** Frames *)

(** The frame classes [main.py] names are [AudioRawFrame] (the [isinstance]
    test of the receive loop) and [EndFrame] (queued on disconnect).  Any
    other frame class the serializer may produce is an [OtherFrame]. *)
Inductive Frame : Type :=
| AudioRawFrame (audio : bytes) (sample_rate : Z) (num_channels : Z)
| EndFrame
| OtherFrame (class_name : string) (payload : bytes).

(** [isinstance(frame, AudioRawFrame)]. *)
Definition isinstance_AudioRawFrame (frame : Frame) : bool :=
  match frame with
  | AudioRawFrame _ _ _ => true
  | _ => false
  end.

(** A frame serializer: [deserialize] returns a frame, or a falsy result
    ([None]) when the message holds no frame it knows, or raises on bytes it
    cannot parse. *)
Record FrameSerializer : Type := mkSerializer {
  deserialize : bytes → Outcome (option Frame)
}.

(** ** The websocket as the receive loop sees it *)

(** How [iter_bytes()] stops: the iterator is exhausted, or an exception
    leaves it. *)
Inductive StreamEnd : Type :=
| EndOfStream
| StreamError (e : PyException).

(** A connection's inbound history: the byte messages it delivers, in order,
    and the way the stream ends. *)
Record WebSocket : Type := mkWebSocket {
  ws_messages : list bytes;
  ws_ending : StreamEnd
}.

(** ** Configuration objects built by [run_bot] *)

(** [VADParams]; the Python float literals are kept as exact decimals. *)
Record VADParams : Type := mkVADParams {
  min_volume : Q;
  start_secs : Q;
  stop_secs : Q;
  confidence : Q
}.

(** [SileroVADAnalyzer(params=...)]. *)
Record SileroVADAnalyzer : Type := mkSilero {
  vad_params : VADParams
}.

(** [FastAPIWebsocketParams], with the fields the source sets. *)
Record FastAPIWebsocketParams : Type := mkWsParams {
  ws_audio_out_enabled : bool;
  add_wav_header : bool;
  vad_enabled : bool;
  vad_analyzer : SileroVADAnalyzer;
  vad_audio_passthrough : bool;
  serializer : FrameSerializer
}.

(** [TransportParams(audio_out_enabled=...)]. *)
Record TransportParams : Type := mkTransportParams {
  audio_out_enabled : bool
}.

(** Deepgram's [LiveOptions]. *)
Record LiveOptions : Type := mkLiveOptions {
  encoding : string;
  language : string;
  model : string;
  sample_rate : Z;
  channels : Z;
  interim_results : bool;
  smart_format : bool
}.

(** One entry of the chat context. *)
Record ChatMessage : Type := mkChatMessage {
  role : string;
  content : string
}.

(** [OpenAILLMContext(messages=...)]. *)
Record OpenAILLMContext : Type := mkContext {
  messages : list ChatMessage
}.

(** [PipelineParams(allow_interruptions=...)]. *)
Record PipelineParams : Type := mkPipelineParams {
  allow_interruptions : bool
}.

(** The [aiohttp.ClientSession] opened by [run_bot], known by its identity. *)
Record ClientSession : Type := mkClientSession {
  http_session_id : nat
}.

(** Which function the input transport's [_receive_messages] attribute is
    bound to: the library's own, or [_patched_receive_messages] after the
    assignment on line 84. *)
Inductive ReceiveMessages : Type :=
| LibraryReceiveMessages
| PatchedReceiveMessages.

(** The attributes of the websocket input transport that the receive loop
    reads through [self]. *)
Record InputTransport : Type := mkInputTransport {
  _websocket : WebSocket;
  _params : FastAPIWebsocketParams;
  _receive_messages : ReceiveMessages
}.

(** ** Frame processors: the stages a pipeline is made of *)

(** One constructor per class instantiated in [run_bot], with the arguments
    the source passes. *)
Inductive Processor : Type :=
| FastAPIWebsocketInputTransport (self : InputTransport)
| FastAPIWebsocketOutputTransport (websocket : WebSocket)
    (params : FastAPIWebsocketParams)
| DeepgramSTTService (api_key : option string) (live_options : LiveOptions)
| OpenAIUserContextAggregator (context : OpenAILLMContext)
| OpenAILLMService (api_key : option string) (llm_model : string)
| ElevenLabsTTSService (api_key : option string) (voice_id : string)
    (output_format : string)
| HeyGenVideoService (session_id : string) (session_token : string)
    (session : ClientSession) (realtime_endpoint : string)
| BaseOutputTransport (params : TransportParams)
| OpenAIAssistantContextAggregator (context : OpenAILLMContext).

(** A stage is a processor object: its identity and its contents. *)
Record Stage : Type := mkStage {
  stage_id : nat;
  processor : Processor
}.

(** The part a stage plays in the chain. *)
Inductive Role : Type :=
| InputBoundary
| SpeechToText
| UserContext
| LanguageModel
| TextToSpeech
| AvatarRender
| OutputBoundary
| AssistantContext.

Global Instance Role_eq_dec : EqDecision Role.
Proof. solve_decision. Defined.

Definition role_of (p : Processor) : Role :=
  match p with
  | FastAPIWebsocketInputTransport _ => InputBoundary
  | FastAPIWebsocketOutputTransport _ _ => OutputBoundary
  | DeepgramSTTService _ _ => SpeechToText
  | OpenAIUserContextAggregator _ => UserContext
  | OpenAILLMService _ _ => LanguageModel
  | ElevenLabsTTSService _ _ _ => TextToSpeech
  | HeyGenVideoService _ _ _ _ => AvatarRender
  | BaseOutputTransport _ => OutputBoundary
  | OpenAIAssistantContextAggregator _ => AssistantContext
  end.

Definition stage_role (s : Stage) : Role := role_of (processor s).

(** [FastAPIWebsocketTransport]: the input and output halves it creates. *)
Record WebsocketTransport : Type := mkTransport {
  _input : Stage;
  _output : Stage
}.

(** [transport.input()] is a library accessor; it is taken to hand out the
    transport's own input object, the one line 84 patches. *)
Definition input (transport : WebsocketTransport) : Stage := _input transport.

(** The pair returned by [llm.create_context_aggregator(context)]; its
    [user()] and [assistant()] accessors hand out the two halves. *)
Record ContextAggregatorPair : Type := mkAggregatorPair {
  _user : Stage;
  _assistant : Stage
}.

Definition user (pair : ContextAggregatorPair) : Stage := _user pair.
Definition assistant (pair : ContextAggregatorPair) : Stage := _assistant pair.

(** [Pipeline(processors)]: the stages in the order given. *)
Record Pipeline : Type := mkPipeline {
  processors : list Stage
}.

(** Modelled from the spec: the [Pipeline] class is a library type whose code
    is not in the source.  By section 4.2 of the specification the stages
    are wired into a single forwarding chain in which the output of stage
    [i] is the input of stage [i+1]: each stage is linked to the one that
    follows it in the list. *)
Definition links (p : Pipeline) : list (Stage * Stage) :=
  zip (processors p) (tail (processors p)).

(** [PipelineTask(pipeline, params)]. *)
Record PipelineTask : Type := mkTask {
  task_pipeline : Pipeline;
  task_params : PipelineParams
}.

(** ** Effects: what a run of the program does, in order *)

(** The closures registered as event handlers (lines 138-145).  The
    disconnect handler captures the [task] it will stop. *)
Inductive Handler : Type :=
| on_client_connected
| on_client_disconnected (task : PipelineTask).

(** Observable actions, in the order they happen. *)
Inductive Effect : Type :=
| LogInfo (msg : string)
| WebsocketAccept
| PushAudioFrame (frame : Frame)      (* a call of push_audio_frame *)
| InternalPushFrame (frame : Frame)   (* a call of _internal_push_frame *)
| ClientDisconnected (websocket : WebSocket)
| QueueFrames (task : PipelineTask) (frames : list Frame)
| RunnerRun (task : PipelineTask)
| ClientSessionClosed (session : ClientSession).

(** The mutable state of one session: the next fresh object identity and the
    transport's table of event handlers, by event name. *)
Record World : Type := mkWorld {
  next_id : nat;
  event_handlers : gmap string (list Handler)
}.

(** The result of running a computation: how it ended, the state it left and
    the effects it emitted. *)
Record Run (A : Type) : Type := mkRun {
  outcome : Outcome A;
  final : World;
  emitted : list Effect
}.

Arguments mkRun {A} outcome final emitted.
Arguments outcome {A} r.
Arguments final {A} r.
Arguments emitted {A} r.

(** A computation with state, a trace of effects, and exceptions. *)
Definition Eff (A : Type) : Type := World → Run A.

Global Instance Eff_ret : MRet Eff := λ A a w, mkRun (Return a) w [].

(** Sequencing: an exception in the first part skips the second. *)
Global Instance Eff_bind : MBind Eff := λ A B k m w,
  let r := m w in
  match outcome r with
  | Return a =>
      let r' := k a (final r) in
      mkRun (outcome r') (final r') (emitted r ++ emitted r')
  | Raise e => mkRun (Raise e) (final r) (emitted r)
  end.

Definition raise {A : Type} (e : PyException) : Eff A :=
  λ w, mkRun (Raise e) w [].

Definition emit (ev : Effect) : Eff unit :=
  λ w, mkRun (Return ()) w [ev].

(** Constructing a processor object gives it a fresh identity. *)
Definition new (p : Processor) : Eff Stage :=
  λ w, mkRun (Return {| stage_id := next_id w; processor := p |})
             {| next_id := S (next_id w);
                event_handlers := event_handlers w |} [].

(** [for x in xs: body(x)] *)
Fixpoint for_each {A : Type} (xs : list A) (body : A → Eff unit) : Eff unit :=
  match xs with
  | [] => mret ()
  | x :: rest => body x ;; for_each rest body
  end.

(** [async for message in websocket.iter_bytes(): body(message)]: the body
    runs on each message in turn; then the loop ends normally when the
    stream is exhausted, or the exception that ended the stream leaves the
    loop. *)
Definition async_for_iter_bytes (websocket : WebSocket)
    (body : bytes → Eff unit) : Eff unit :=
  for_each (ws_messages websocket) body ;;
  match ws_ending websocket with
  | EndOfStream => mret ()
  | StreamError e => raise e
  end.

(** [async with aiohttp.ClientSession() as session: body]: a fresh session,
    closed when the block is left, normally or by an exception. *)
Definition async_with_ClientSession {A : Type}
    (body : ClientSession → Eff A) : Eff A :=
  λ w,
    let session := {| http_session_id := next_id w |} in
    let r := body session {| next_id := S (next_id w);
                             event_handlers := event_handlers w |} in
    mkRun (outcome r) (final r) (emitted r ++ [ClientSessionClosed session]).

Definition logger_info (msg : string) : Eff unit := emit (LogInfo msg).

(** ** Event handlers (lines 138-145) *)

(** [@transport.event_handler(name)] is a library decorator; it is taken to
    add the handler to the transport's table under that name. *)
Definition event_handler (name : string) (h : Handler) : Eff unit :=
  λ w, mkRun (Return ())
             {| next_id := next_id w;
                event_handlers :=
                  <[name := default [] (event_handlers w !! name) ++ [h]]>
                    (event_handlers w) |} [].

(** [task.queue_frames(frames)] *)
Definition queue_frames (task : PipelineTask) (frames : list Frame)
  : Eff unit :=
  emit (QueueFrames task frames).

(** The bodies of the two handlers. *)
Definition call_handler (h : Handler) : Eff unit :=
  match h with
  | on_client_connected => logger_info "Client connected."
  | on_client_disconnected task =>
      logger_info "Client disconnected." ;;
      queue_frames task [EndFrame]
  end.

(** The handlers registered for an event, in registration order. *)
Definition call_event_handler (name : string) : Eff unit :=
  λ w, for_each (default [] (event_handlers w !! name)) call_handler w.

(** [self._callbacks.on_client_disconnected(websocket)]: the signal is
    raised and, as the library forwards the callback to the event handlers
    of the transport, the registered handlers run. *)
Definition _callbacks_on_client_disconnected (websocket : WebSocket)
  : Eff unit :=
  emit (ClientDisconnected websocket) ;;
  call_event_handler "on_client_disconnected".

(** ** The patched receive loop (lines 73-82) *)

(** The two push methods the loop calls on [self] belong to the library
    class: for each frame, the call returns or raises. *)
Record InputMethods : Type := mkInputMethods {
  push_audio_frame_result : Frame → Outcome unit;
  _internal_push_frame_result : Frame → Outcome unit
}.

(** The result of a library call, inside a computation. *)
Definition lift {A : Type} (o : Outcome A) : Eff A :=
  match o with
  | Return a => mret a
  | Raise e => raise e
  end.

(** [self.push_audio_frame(frame)]: the call is recorded; it returns or
    raises as the library decides. *)
Definition push_audio_frame (lib : InputMethods) (frame : Frame)
  : Eff unit :=
  emit (PushAudioFrame frame) ;;
  lift (push_audio_frame_result lib frame).

(** [self._internal_push_frame(frame)], likewise. *)
Definition _internal_push_frame (lib : InputMethods) (frame : Frame)
  : Eff unit :=
  emit (InternalPushFrame frame) ;;
  lift (_internal_push_frame_result lib frame).

(** The body of the loop, for one message.  Nothing in it catches an
    exception: one raised by the serializer or by a push leaves the body,
    and with it the loop. *)
Definition receive_message (lib : InputMethods) (self : InputTransport)
    (message : bytes) : Eff unit :=
  frame ← lift (deserialize (serializer (_params self)) message);
  match frame with
  | None => mret ()   (* if not frame: continue *)
  | Some frame =>
      if isinstance_AudioRawFrame frame
      then push_audio_frame lib frame
      else _internal_push_frame lib frame
  end.

Definition _patched_receive_messages (lib : InputMethods)
    (self : InputTransport) : Eff unit :=
  async_for_iter_bytes (_websocket self) (receive_message lib self) ;;
  _callbacks_on_client_disconnected (_websocket self).

(** ** Library constructors that create more than one object *)

(** [FastAPIWebsocketTransport(websocket, params)] creates its input and
    output halves; the input starts with the library's receive loop. *)
Definition FastAPIWebsocketTransport (websocket : WebSocket)
    (params : FastAPIWebsocketParams) : Eff WebsocketTransport :=
  i ← new (FastAPIWebsocketInputTransport
             {| _websocket := websocket;
                _params := params;
                _receive_messages := LibraryReceiveMessages |});
  o ← new (FastAPIWebsocketOutputTransport websocket params);
  mret {| _input := i; _output := o |}.

(** Line 84: [transport._input._receive_messages = partial(...)].  The
    attribute of the existing input object is rebound; its identity and its
    other attributes stay. *)
Definition patch_receive_messages (transport : WebsocketTransport)
  : WebsocketTransport :=
  {| _input :=
       match processor (_input transport) with
       | FastAPIWebsocketInputTransport self =>
           {| stage_id := stage_id (_input transport);
              processor :=
                FastAPIWebsocketInputTransport
                  {| _websocket := _websocket self;
                     _params := _params self;
                     _receive_messages := PatchedReceiveMessages |} |}
       | _ => _input transport
       end;
     _output := _output transport |}.

(** [llm.create_context_aggregator(context)]: a user-side and an
    assistant-side aggregator over the same context. *)
Definition create_context_aggregator (llm : Stage)
    (context : OpenAILLMContext) : Eff ContextAggregatorPair :=
  u ← new (OpenAIUserContextAggregator context);
  a ← new (OpenAIAssistantContextAggregator context);
  mret {| _user := u; _assistant := a |}.

(** [runner.run(task)]: the task is handed to the library's runner.  What
    the runner does with it is not in the source; the call is recorded. *)
Definition runner_run (task : PipelineTask) : Eff unit :=
  emit (RunnerRun task).

(** ** [run_bot] and the websocket entry point *)

Section Bot.

(** [ProtobufFrameSerializer()], the library's wire format. *)
Variable ProtobufFrameSerializer : FrameSerializer.

(** The module globals, as left by [module_startup]. *)
Variable globals : Globals.

Definition system_prompt : string :=
  "You are a helpful LLM in a WebRTC call. Your goal is to demonstrate your capabilities in a succinct way. Your output will be converted to audio so don't include special characters in your answers. Respond to what the user said in a creative and helpful way. Be brief, concise, and to the point.".

Definition run_bot (websocket_client : WebSocket)
    (session_id session_token realtime_endpoint : string) : Eff unit :=
  async_with_ClientSession (λ session,
    let params := {| min_volume := 0.6; start_secs := 0.2;
                     stop_secs := 1.2; confidence := 0.7 |} in
    transport ← FastAPIWebsocketTransport websocket_client
      {| ws_audio_out_enabled := true;
         add_wav_header := true;
         vad_enabled := true;
         vad_analyzer := {| vad_params := params |};
         vad_audio_passthrough := true;
         serializer := ProtobufFrameSerializer |};
    let transport := patch_receive_messages transport in
    stt ← new (DeepgramSTTService (deepgram_api_key globals)
                 {| encoding := "linear16";
                    language := "en-US";
                    model := "nova-2-conversationalai";
                    sample_rate := 16000;
                    channels := 1;
                    interim_results := true;
                    smart_format := true |});
    llm ← new (OpenAILLMService (openai_api_key globals) "gpt-4o-mini");
    let messages := [ {| role := "system"; content := system_prompt |} ] in
    let context := {| messages := messages |} in
    context_aggregator ← create_context_aggregator llm context;
    tts ← new (ElevenLabsTTSService (elevenlabs_api_key globals)
                 "29vD33N1CtxCmqQRPOHJ" "pcm_24000");
    heygen_video_service ←
      new (HeyGenVideoService session_id session_token session
             realtime_endpoint);
    output_transport ←
      new (BaseOutputTransport {| audio_out_enabled := true |});
    let pipeline :=
      {| processors :=
           [ input transport;
             stt;
             user context_aggregator;
             llm;
             tts;
             heygen_video_service;
             output_transport;
             assistant context_aggregator ] |} in
    let task :=
      {| task_pipeline := pipeline;
         task_params := {| allow_interruptions := true |} |} in
    event_handler "on_client_connected" on_client_connected ;;
    event_handler "on_client_disconnected" (on_client_disconnected task) ;;
    runner_run task).

(** [websocket.accept()] *)
Definition websocket_accept : Eff unit := emit WebsocketAccept.

Definition websocket_endpoint (websocket : WebSocket)
    (session_id session_token realtime_endpoint : string) : Eff unit :=
  logger_info ("WebSocket connection established with session_id: "
               +:+ session_id) ;;
  logger_info ("realtime_endpoint: " +:+ realtime_endpoint) ;;
  websocket_accept ;;
  run_bot websocket session_id session_token realtime_endpoint.

End Bot.

(** ** The process *)

(** Importing the module either raises, and there is no application, or
    leaves an application whose route serves connections with the globals
    that were read. *)
Inductive Process : Type :=
| Crashed (e : PyException)
| Serving (globals : Globals).

Definition start (environ : gmap string string) : Process :=
  match module_startup environ with
  | Raise e => Crashed e
  | Return globals => Serving globals
  end.

(** A client connecting to [/user-audio-input]: only a serving process has
    the route. *)
Definition connect (ProtobufFrameSerializer : FrameSerializer)
    (p : Process) (websocket : WebSocket)
    (session_id session_token realtime_endpoint : string)
  : option (Eff unit) :=
  match p with
  | Crashed _ => None
  | Serving globals =>
      Some (websocket_endpoint ProtobufFrameSerializer globals websocket
              session_id session_token realtime_endpoint)
  end.

(** ** Reading a trace *)

Definition tasks_run (t : list Effect) : list PipelineTask :=
  omap (λ ev, match ev with RunnerRun task => Some task | _ => None end) t.

Definition is_client_disconnected (ev : Effect) : bool :=
  match ev with
  | ClientDisconnected _ => true
  | _ => false
  end.

(** How many times the disconnect signal was raised. *)
Definition client_disconnected_count (t : list Effect) : nat :=
  length (filter (λ ev, is_client_disconnected ev = true) t).

(** The calls of a push method, on either path. *)
Definition is_push (ev : Effect) : bool :=
  match ev with
  | PushAudioFrame _ | InternalPushFrame _ => true
  | _ => false
  end.

(** The path the loop chooses for a decoded frame. *)
Definition dispatch (frame : Frame) : Effect :=
  if isinstance_AudioRawFrame frame
  then PushAudioFrame frame
  else InternalPushFrame frame.

(** The avatar services found among the stages of a pipeline. *)
Definition avatar_services (p : Pipeline) : list Processor :=
  filter (λ x, role_of x = AvatarRender) (processor <$> processors p).

(** A starting state: no object created yet, no handler registered. *)
Definition initial_world : World :=
  {| next_id := 0; event_handlers := ∅ |}.

(** What a handler emits when it is called. *)
Definition handler_effects (h : Handler) : list Effect :=
  match h with
  | on_client_connected => [LogInfo "Client connected."]
  | on_client_disconnected task =>
      [LogInfo "Client disconnected."; QueueFrames task [EndFrame]]
  end.

(** The handlers registered under a name, in registration order. *)
Definition registered (w : World) (name : string) : list Handler :=
  default [] (event_handlers w !! name).

(** A chain is linear when no stage has two successors, no stage has two
    predecessors, and every link goes from a position to the next one. *)
Definition linear_chain (p : Pipeline) : Prop :=
  (∀ a b c, (a, b) ∈ links p → (a, c) ∈ links p → b = c) ∧
  (∀ a b c, (a, c) ∈ links p → (b, c) ∈ links p → a = b) ∧
  (∀ a b, (a, b) ∈ links p →
     ∃ i, processors p !! i = Some a ∧ processors p !! S i = Some b).

(** How the push of a decoded frame ends, on the path chosen for it. *)
Definition push_result (lib : InputMethods) (frame : Frame) : Outcome unit :=
  if isinstance_AudioRawFrame frame
  then push_audio_frame_result lib frame
  else _internal_push_frame_result lib frame.

(** How the handling of one message ends: with the serializer's exception,
    normally when there is no frame, or as the push of the frame does. *)
Definition message_outcome (lib : InputMethods) (ser : FrameSerializer)
    (message : bytes) : Outcome unit :=
  match deserialize ser message with
  | Raise e => Raise e
  | Return None => Return ()
  | Return (Some frame) => push_result lib frame
  end.

(** The frame a message decodes to, if the serializer returns one. *)
Definition decode (ser : FrameSerializer) (message : bytes) : option Frame :=
  match deserialize ser message with
  | Return (Some frame) => Some frame
  | _ => None
  end.

(** ** The receive loop a session runs *)

Section InputBoundary.

(** The receive loop of the library class, which line 84 replaces; what it
    does is not in the source. *)
Variable library_receive_messages : InputTransport → Eff unit.

Variable lib : InputMethods.

(** The call [self._receive_messages()]: the attribute decides which
    function runs. *)
Definition call_receive_messages (self : InputTransport) : Eff unit :=
  match _receive_messages self with
  | PatchedReceiveMessages => _patched_receive_messages lib self
  | LibraryReceiveMessages => library_receive_messages self
  end.

(** The receive loop of a task: the one the head of its pipeline, the input
    boundary, is bound to. *)
Definition input_boundary_receive (task : PipelineTask) : Eff unit :=
  match head (processors (task_pipeline task)) with
  | Some first =>
      match processor first with
      | FastAPIWebsocketInputTransport self => call_receive_messages self
      | _ => mret ()
      end
  | None => mret ()
  end.

(** The receive loop of the session that [run_bot] sets up for a
    connection. *)
Definition session_receive (ProtobufFrameSerializer : FrameSerializer)
    (globals : Globals) (websocket_client : WebSocket)
    (session_id session_token realtime_endpoint : string) (w : World)
  : Eff unit :=
  match tasks_run (emitted (run_bot ProtobufFrameSerializer globals
                              websocket_client session_id session_token
                              realtime_endpoint w)) with
  | [task] => input_boundary_receive task
  | _ => mret ()
  end.

End InputBoundary.

(** ** Sample data *)

(** A toy wire format: tag [0x01] is audio at 16 kHz mono, tag [0x02] is a
    text frame, the empty message holds no frame, and anything else cannot
    be parsed. *)
Definition sample_deserialize (message : bytes) : Outcome (option Frame) :=
  match message with
  | [] => Return None
  | Byte.x01 :: rest => Return (Some (AudioRawFrame rest 16000 1))
  | Byte.x02 :: rest => Return (Some (OtherFrame "TextFrame" rest))
  | _ => Raise {| exc_class := "DecodeError";
                  exc_message := "Error parsing message" |}
  end.

Definition sample_serializer : FrameSerializer :=
  {| deserialize := sample_deserialize |}.

Definition sample_params : FastAPIWebsocketParams :=
  {| ws_audio_out_enabled := true;
     add_wav_header := true;
     vad_enabled := true;
     vad_analyzer :=
       {| vad_params := {| min_volume := 0.6; start_secs := 0.2;
                           stop_secs := 1.2; confidence := 0.7 |} |};
     vad_audio_passthrough := true;
     serializer := sample_serializer |}.

Definition audio_message : bytes := [Byte.x01; Byte.x10; Byte.x20].
Definition text_message : bytes := [Byte.x02; Byte.x68; Byte.x69].
Definition empty_message : bytes := [].
Definition garbage_message : bytes := [Byte.xff].

(** A connection that delivers three messages and then closes. *)
Definition closing_socket : WebSocket :=
  {| ws_messages := [audio_message; empty_message; text_message];
     ws_ending := EndOfStream |}.

(** A connection that delivers a message that cannot be parsed between two
    good ones, and then closes. *)
Definition malformed_socket : WebSocket :=
  {| ws_messages := [audio_message; garbage_message; text_message];
     ws_ending := EndOfStream |}.

(** Push methods that always return. *)
Definition returning_methods : InputMethods :=
  {| push_audio_frame_result := λ _, Return ();
     _internal_push_frame_result := λ _, Return () |}.

(** A stand-in for the library's own receive loop. *)
Definition idle_receive_messages (self : InputTransport) : Eff unit :=
  mret ().

Definition input_on (websocket : WebSocket) : InputTransport :=
  {| _websocket := websocket;
     _params := sample_params;
     _receive_messages := PatchedReceiveMessages |}.

(** An environment with only the Deepgram key. *)
Definition deepgram_only : gmap string string :=
  {[ "DEEPGRAM_API_KEY" := "dg-key" ]}.

(** ** Further readings of a trace *)

(** The lines written to the log, in order. *)
Definition logged (t : list Effect) : list string :=
  omap (λ ev, match ev with LogInfo msg => Some msg | _ => None end) t.

(** The calls of [task.queue_frames]: the task and the frames given. *)
Definition queue_calls (t : list Effect) : list (PipelineTask * list Frame) :=
  omap (λ ev, match ev with
              | QueueFrames task frames => Some (task, frames)
              | _ => None
              end) t.

(** The processors of a pipeline that play a given role. *)
Definition services_with_role (r : Role) (p : Pipeline) : list Processor :=
  filter (λ x, role_of x = r) (processor <$> processors p).

(** The checks of lines 34-44, in source order: the variable read and the
    message of the [ValueError] raised when it is falsy. *)
Definition credential_checks : list (string * string) :=
  [ ("DEEPGRAM_API_KEY", "DEEPGRAM_API_KEY must be set");
    ("OPENAI_API_KEY", "OPENAI_API_KEY");
    ("ELEVENLABS_API_KEY", "ELEVENLABS_API_KEY must be set") ].

(** ** Running the module as a script (lines 182-185) *)

(** The arguments of [uvicorn.run]. *)
Record UvicornRun : Type := mkUvicornRun {
  uv_app : string;
  uv_host : string;
  uv_port : Z;
  uv_workers : Z
}.

(** [os.getenv(name, default)] with an integer default: the string of the
    variable when it is set, the default itself otherwise. *)
Definition getenv_default (environ : gmap string string) (name : string)
    (default : Z) : string + Z :=
  match environ !! name with
  | Some s => inl s
  | None => inr default
  end.

Section Script.

(** Python's [int] on a string: the integer it denotes, or the exception
    raised when it denotes none. *)
Variable int_of_str : string → Outcome Z.

(** [int(v)] for a string or an integer. *)
Definition int (v : string + Z) : Outcome Z :=
  match v with
  | inl s => int_of_str s
  | inr n => Return n
  end.

(** The body of [if __name__ == "__main__":]. *)
Definition main_block (environ : gmap string string) : Outcome UvicornRun :=
  match int (getenv_default environ "PORT" 3001) with
  | Raise e => Raise e
  | Return port =>
      match int (getenv_default environ "WORKERS" 1) with
      | Raise e => Raise e
      | Return workers =>
          Return {| uv_app := "main:app";
                    uv_host := "0.0.0.0";
                    uv_port := port;
                    uv_workers := workers |}
      end
  end.

(** [python main.py]: the module body runs from the top, so the credential
    checks come before the main block. *)
Definition script (environ : gmap string string) : Outcome UvicornRun :=
  match module_startup environ with
  | Raise e => Raise e
  | Return _ => main_block environ
  end.

End Script.

(** ** More sample data *)

(** An environment with the three credentials and nothing else. *)
Definition full_environ : gmap string string :=
  {[ "DEEPGRAM_API_KEY" := "dg-key";
     "OPENAI_API_KEY" := "oa-key";
     "ELEVENLABS_API_KEY" := "el-key" ]}.

(** An environment in which the OpenAI key is set but empty. *)
Definition empty_openai_environ : gmap string string :=
  <[ "OPENAI_API_KEY" := "" ]> full_environ.

(** The globals read from [full_environ]. *)
Definition sample_globals : Globals :=
  {| deepgram_api_key := Some "dg-key";
     openai_api_key := Some "oa-key";
     elevenlabs_api_key := Some "el-key" |}.

(** A stand-in for [int] that rejects every string. *)
Definition rejecting_int (s : string) : Outcome Z :=
  Raise (ValueError ("invalid literal for int() with base 10: " +:+ s)).

(** * Properties *)

(** ** Running sequenced computations *)

Lemma bind_return {A B} (m : Eff A) (k : A → Eff B) w a w1 t1 :
  m w = mkRun (Return a) w1 t1 →
  (m ≫= k) w =
  mkRun (outcome (k a w1)) (final (k a w1)) (t1 ++ emitted (k a w1)).
Proof. intros H. unfold mbind, Eff_bind. rewrite H. reflexivity. Qed.

Lemma bind_raise {A B} (m : Eff A) (k : A → Eff B) w e w1 t1 :
  m w = mkRun (Raise e) w1 t1 →
  (m ≫= k) w = mkRun (Raise e) w1 t1.
Proof. intros H. unfold mbind, Eff_bind. rewrite H. reflexivity. Qed.

(** ** Module start-up *)

Lemma py_not_false v : py_not v = false ↔ ∃ s, v = Some s ∧ s ≠ "".
Proof.
  destruct v as [s|]; cbn [py_not].
  - rewrite bool_decide_eq_false. split.
    + intros Hs. exists s. auto.
    + intros (s' & [= <-] & Hs). exact Hs.
  - split; [discriminate|]. intros (s & Hs & _). discriminate.
Qed.

(** Start-up succeeds exactly when the three variables are set to non-empty
    strings, and then the globals hold them. *)
Lemma startup_succeeds_iff environ globals :
  module_startup environ = Return globals ↔
  ∃ d o e,
    environ !! "DEEPGRAM_API_KEY" = Some d ∧ d ≠ "" ∧
    environ !! "OPENAI_API_KEY" = Some o ∧ o ≠ "" ∧
    environ !! "ELEVENLABS_API_KEY" = Some e ∧ e ≠ "" ∧
    globals = {| deepgram_api_key := Some d;
                 openai_api_key := Some o;
                 elevenlabs_api_key := Some e |}.
Proof.
  unfold module_startup, getenv. split.
  - destruct (py_not (environ !! "DEEPGRAM_API_KEY")) eqn:Hd; [discriminate|].
    destruct (py_not (environ !! "OPENAI_API_KEY")) eqn:Ho; [discriminate|].
    destruct (py_not (environ !! "ELEVENLABS_API_KEY")) eqn:He;
      [discriminate|].
    apply py_not_false in Hd as (d & Hd & Hd').
    apply py_not_false in Ho as (o & Ho & Ho').
    apply py_not_false in He as (e & He & He').
    intros [= <-]. exists d, o, e. rewrite Hd, Ho, He. auto 10.
  - intros (d & o & e & Hd & Hd' & Ho & Ho' & He & He' & ->).
    rewrite Hd, Ho, He. cbn [py_not].
    rewrite !bool_decide_eq_false_2 by assumption. reflexivity.
Qed.

(** Whatever start-up raises is a [ValueError]. *)
Lemma startup_raises_value_error environ e :
  module_startup environ = Raise e → exc_class e = "ValueError".
Proof.
  unfold module_startup.
  repeat (match goal with |- context [if ?b then _ else _] => destruct b end);
    intros [= <-]; reflexivity.
Qed.

Lemma absent_credential_raises environ name :
  name ∈ required_credentials → absent environ name →
  ∃ e, module_startup environ = Raise e.
Proof.
  intros Hname Habs.
  destruct (module_startup environ) as [g|e] eqn:Hs; [|eauto].
  apply startup_succeeds_iff in Hs as (d & o & e & Hd & _ & Ho & _ & He & _).
  unfold required_credentials in Hname. rewrite !elem_of_cons in Hname.
  unfold absent in Habs.
  destruct Hname as [->|[->|[->|Hnil]]]; try congruence.
  by apply elem_of_nil in Hnil.
Qed.




(** ** What [run_bot] builds *)

(** In a list without repeated stages, adjacency is a linear chain. *)
Lemma NoDup_linear_chain p : NoDup (processors p) → linear_chain p.
Proof.
  intros Hnd. unfold linear_chain, links.
  assert (Hlink : ∀ a b, (a, b) ∈ zip (processors p) (tail (processors p)) →
            ∃ i, processors p !! i = Some a ∧ processors p !! S i = Some b).
  { intros a b Hab.
    apply elem_of_lookup_zip_with in Hab as (i & x & y & Heq & Hx & Hy).
    inversion Heq; subst. rewrite lookup_tail in Hy. eauto. }
  split; [|split].
  - intros a b c (i & Hia & Hib)%Hlink (j & Hja & Hjc)%Hlink.
    assert (i = j) as -> by eauto using NoDup_lookup. congruence.
  - intros a b c (i & Hia & Hic)%Hlink (j & Hjb & Hjc)%Hlink.
    assert (S i = S j) as [= ->] by eauto using NoDup_lookup. congruence.
  - exact Hlink.
Qed.

Lemma filter_role_absent (r : Role) l :
  r ∉ stage_role <$> l → filter (λ s, stage_role s = r) l = [].
Proof.
  induction l as [|s rest IH]; [done|].
  rewrite fmap_cons, not_elem_of_cons. intros [Hs Hrest].
  rewrite filter_cons_False by congruence. auto.
Qed.

(** A role that heads the list of roles and does not occur again belongs to
    the first stage only. *)
Lemma single_role_at_head (r : Role) l rs :
  stage_role <$> l = r :: rs → r ∉ rs →
  ∃ first, head l = Some first ∧ filter (λ s, stage_role s = r) l = [first].
Proof.
  destruct l as [|first rest]; [done|].
  rewrite fmap_cons. intros [= Hfirst Hrest] Hnot. subst rs.
  exists first. split; [done|].
  rewrite filter_cons_True by done.
  by rewrite filter_role_absent.
Qed.

(** The trace of [run_bot]: one task is handed to the runner, then the HTTP
    session is closed.  The stages of the task's pipeline, by identity and
    by role. *)
Lemma run_bot_trace ser g ws sid tok ep w :
  ∃ task,
    emitted (run_bot ser g ws sid tok ep w) =
      [RunnerRun task;
       ClientSessionClosed {| http_session_id := next_id w |}] ∧
    stage_id <$> processors (task_pipeline task) =
      (λ k, k + next_id w) <$> [1; 3; 5; 4; 7; 8; 9; 6] ∧
    stage_role <$> processors (task_pipeline task) =
      [InputBoundary; SpeechToText; UserContext; LanguageModel;
       TextToSpeech; AvatarRender; OutputBoundary; AssistantContext].
Proof.
  eexists.
  split; [lazy; reflexivity|].
  split; lazy; reflexivity.
Qed.

(** The entry point logs, accepts the connection and runs the bot. *)
Lemma websocket_endpoint_run ser g ws sid tok ep w :
  websocket_endpoint ser g ws sid tok ep w =
  let r := run_bot ser g ws sid tok ep w in
  mkRun (outcome r) (final r)
    ([LogInfo ("WebSocket connection established with session_id: " +:+ sid);
      LogInfo ("realtime_endpoint: " +:+ ep);
      WebsocketAccept] ++ emitted r).
Proof.
  lazy [websocket_endpoint mbind Eff_bind logger_info websocket_accept emit
        outcome final emitted app].
  reflexivity.
Qed.

(** The head of the pipeline is the input half of the transport built on the
    connection's websocket, with the patched receive loop, the given
    serializer and the voice-activity parameters of lines 53-58; the task
    allows interruptions. *)
Lemma input_boundary_of_run_bot ser g ws sid tok ep w :
  ∃ task first self,
    tasks_run (emitted (run_bot ser g ws sid tok ep w)) = [task] ∧
    head (processors (task_pipeline task)) = Some first ∧
    processor first = FastAPIWebsocketInputTransport self ∧
    _websocket self = ws ∧
    serializer (_params self) = ser ∧
    _receive_messages self = PatchedReceiveMessages ∧
    vad_params (vad_analyzer (_params self)) =
      {| min_volume := 0.6; start_secs := 0.2;
         stop_secs := 1.2; confidence := 0.7 |} ∧
    task_params task = {| allow_interruptions := true |}.
Proof.
  eexists _, _, _.
  do 7 (split; [lazy; reflexivity|]).
  lazy; reflexivity.
Qed.

(** [run_bot] adds the disconnect handler, closed over the task it ran, after
    the handlers already registered. *)
Lemma run_bot_registers ser g ws sid tok ep w :
  ∃ task,
    tasks_run (emitted (run_bot ser g ws sid tok ep w)) = [task] ∧
    registered (final (run_bot ser g ws sid tok ep w))
               "on_client_disconnected"
    = registered w "on_client_disconnected" ++ [on_client_disconnected task].
Proof.
  eexists. split; [lazy; reflexivity|].
  unfold registered.
  lazy [run_bot async_with_ClientSession mbind Eff_bind mret Eff_ret
        FastAPIWebsocketTransport create_context_aggregator new
        event_handler runner_run emit patch_receive_messages
        outcome final emitted next_id event_handlers].
  rewrite lookup_insert_eq. cbn [default].
  rewrite lookup_insert_ne by done.
  reflexivity.
Qed.

(** Claim C1.  The pipeline handed to the task is the ordered chain input
    transport, speech-to-text, user context aggregator, language model,
    text-to-speech, avatar renderer, output transport, assistant context
    aggregator; its head is the only input-boundary stage; no stage occurs
    twice; and the chain is linear. *)
Theorem pipeline_is_the_ordered_chain ser g ws sid tok ep w :
  ∃ task first,
    tasks_run (emitted (run_bot ser g ws sid tok ep w)) = [task] ∧
    stage_role <$> processors (task_pipeline task) =
      [InputBoundary; SpeechToText; UserContext; LanguageModel;
       TextToSpeech; AvatarRender; OutputBoundary; AssistantContext] ∧
    head (processors (task_pipeline task)) = Some first ∧
    filter (λ s, stage_role s = InputBoundary)
           (processors (task_pipeline task)) = [first] ∧
    NoDup (stage_id <$> processors (task_pipeline task)) ∧
    linear_chain (task_pipeline task).
Proof.
  destruct (run_bot_trace ser g ws sid tok ep w)
    as (task & Ht & Hids & Hroles).
  destruct (single_role_at_head _ _ _ Hroles) as (first & Hhead & Hfilter);
    [compute_done|].
  assert (Hnd : NoDup (stage_id <$> processors (task_pipeline task))).
  { rewrite Hids. apply NoDup_fmap_2; [intros x y; lia|]. compute_done. }
  exists task, first. rewrite Ht.
  eauto 10 using NoDup_linear_chain, NoDup_fmap_1.
Qed.

(** Claim C9.  For every connection, the session identifier, the session
    token and the realtime endpoint given to the websocket entry point are
    the arguments, unchanged, of the one avatar-rendering service in the
    pipeline of the task that is run. *)
Theorem session_strings_reach_avatar_service ser g ws sid tok ep w :
  ∃ task session,
    tasks_run (emitted (websocket_endpoint ser g ws sid tok ep w)) = [task] ∧
    avatar_services (task_pipeline task) =
      [HeyGenVideoService sid tok session ep].
Proof.
  rewrite websocket_endpoint_run. cbv zeta. cbn [emitted].
  eexists _, _. split; lazy; reflexivity.
Qed.

(** ** The patched receive loop *)

(** One pass of the loop body leaves the state alone, ends as
    [message_outcome] says and records the push of the decoded frame, if
    there is one. *)
Lemma receive_message_run lib self message w :
  receive_message lib self message w =
  mkRun (message_outcome lib (serializer (_params self)) message) w
    (match decode (serializer (_params self)) message with
     | Some frame => [dispatch frame]
     | None => []
     end).
Proof.
  unfold receive_message, message_outcome, decode, push_result, dispatch.
  destruct (deserialize _ message) as [[frame|]|e]; try reflexivity.
  lazy [mbind Eff_bind lift mret Eff_ret outcome final emitted app].
  unfold push_audio_frame, _internal_push_frame.
  destruct (isinstance_AudioRawFrame frame).
  - destruct (push_audio_frame_result lib frame) as [[]|e]; reflexivity.
  - destruct (_internal_push_frame_result lib frame) as [[]|e]; reflexivity.
Qed.

(** A message whose handling raises ends the loop there. *)
Lemma for_each_receive_raises lib self message rest e w :
  message_outcome lib (serializer (_params self)) message = Raise e →
  for_each (message :: rest) (receive_message lib self) w =
  mkRun (Raise e) w
    (match decode (serializer (_params self)) message with
     | Some frame => [dispatch frame]
     | None => []
     end).
Proof.
  intros He. cbn [for_each].
  erewrite bind_raise; [reflexivity|].
  rewrite receive_message_run, He. reflexivity.
Qed.

(** Messages whose handling returns are passed over, each leaving its push
    in the trace, and the loop goes on with what follows. *)
Lemma for_each_receive_app lib self before rest w :
  Forall (λ m, message_outcome lib (serializer (_params self)) m = Return ())
         before →
  for_each (before ++ rest) (receive_message lib self) w =
  let r := for_each rest (receive_message lib self) w in
  mkRun (outcome r) (final r)
    ((dispatch <$> omap (decode (serializer (_params self))) before)
       ++ emitted r).
Proof.
  intros Hbefore. cbv zeta.
  induction Hbefore as [|m before Hm _ IH].
  - cbn [app]. by destruct (for_each rest (receive_message lib self) w).
  - cbn [app for_each].
    erewrite bind_return by (rewrite receive_message_run, Hm; reflexivity).
    rewrite IH. cbn [outcome final emitted omap list_omap].
    destruct (decode _ m); reflexivity.
Qed.

Lemma for_each_receive_returns lib self msgs w :
  Forall (λ m, message_outcome lib (serializer (_params self)) m = Return ())
         msgs →
  for_each msgs (receive_message lib self) w =
  mkRun (Return ()) w
    (dispatch <$> omap (decode (serializer (_params self))) msgs).
Proof.
  intros Hall.
  rewrite <- (app_nil_r msgs) at 1.
  rewrite for_each_receive_app by assumption.
  cbn. by rewrite app_nil_r.
Qed.

(** The loop either handles every message, or stops at the first one whose
    handling raises. *)
Lemma for_each_receive_cases lib self msgs :
  Forall (λ m, message_outcome lib (serializer (_params self)) m = Return ())
         msgs ∨
  ∃ before message after e,
    msgs = before ++ message :: after ∧
    Forall (λ m, message_outcome lib (serializer (_params self)) m
                 = Return ()) before ∧
    message_outcome lib (serializer (_params self)) message = Raise e.
Proof.
  induction msgs as [|m rest IH]; [by left|].
  destruct (message_outcome lib (serializer (_params self)) m) as [[]|e]
    eqn:Hm.
  - destruct IH as [Hall|(before & message & after & e & -> & Hb & He)].
    + left. by constructor.
    + right. exists (m :: before), message, after, e. auto.
  - right. exists [], m, rest, e. auto.
Qed.

Lemma for_each_handlers hs w :
  for_each hs call_handler w = mkRun (Return ()) w (hs ≫= handler_effects).
Proof.
  induction hs as [|h rest IH]; [reflexivity|].
  cbn [for_each].
  assert (Hh : call_handler h w = mkRun (Return ()) w (handler_effects h))
    by (destruct h; reflexivity).
  erewrite bind_return by exact Hh.
  rewrite IH. reflexivity.
Qed.

(** The whole function when every message is handled: the pushes, then the
    end of the stream decides. *)
Lemma patched_receive_messages_handled lib self w :
  Forall (λ m, message_outcome lib (serializer (_params self)) m = Return ())
         (ws_messages (_websocket self)) →
  _patched_receive_messages lib self w =
  let pushes :=
    dispatch <$> omap (decode (serializer (_params self)))
                      (ws_messages (_websocket self)) in
  match ws_ending (_websocket self) with
  | EndOfStream =>
      mkRun (Return ()) w
        (pushes ++ ClientDisconnected (_websocket self)
                :: (registered w "on_client_disconnected" ≫= handler_effects))
  | StreamError e => mkRun (Raise e) w pushes
  end.
Proof.
  intros Hall. unfold _patched_receive_messages, async_for_iter_bytes.
  cbv zeta.
  pose proof (for_each_receive_returns lib self _ w Hall) as Hloop.
  destruct (ws_ending (_websocket self)) as [|e].
  - erewrite bind_return.
    2:{ erewrite bind_return by exact Hloop. reflexivity. }
    cbn [outcome final emitted]. rewrite app_nil_r.
    unfold _callbacks_on_client_disconnected.
    erewrite (bind_return (emit _)) by reflexivity.
    unfold call_event_handler. rewrite for_each_handlers.
    reflexivity.
  - erewrite bind_raise; [reflexivity|].
    erewrite bind_return by exact Hloop.
    cbn. by rewrite app_nil_r.
Qed.

(** The whole function when the handling of a message raises: the loop is
    left there, whatever follows and however the stream would end. *)
Lemma patched_receive_messages_raises lib self before message after e w :
  ws_messages (_websocket self) = before ++ message :: after →
  Forall (λ m, message_outcome lib (serializer (_params self)) m = Return ())
         before →
  message_outcome lib (serializer (_params self)) message = Raise e →
  _patched_receive_messages lib self w =
  mkRun (Raise e) w
    (dispatch <$> omap (decode (serializer (_params self)))
                       (before ++ [message])).
Proof.
  intros Hmsgs Hbefore He.
  unfold _patched_receive_messages, async_for_iter_bytes. rewrite Hmsgs.
  erewrite bind_raise; [reflexivity|].
  erewrite bind_raise; [reflexivity|].
  rewrite for_each_receive_app by assumption. cbv zeta.
  rewrite (for_each_receive_raises _ _ _ _ e) by assumption.
  cbn [outcome final emitted]. f_equal.
  rewrite omap_app, fmap_app. cbn [omap list_omap].
  destruct (decode _ message); reflexivity.
Qed.

(** *** The receive loop of a session is the patched one *)

(** The input transport that [run_bot] puts at the head of the pipeline. *)
Lemma session_receive_patched library lib ser g ws sid tok ep w :
  ∃ self,
    session_receive library lib ser g ws sid tok ep w =
      _patched_receive_messages lib self ∧
    _websocket self = ws ∧
    serializer (_params self) = ser.
Proof.
  destruct (input_boundary_of_run_bot ser g ws sid tok ep w)
    as (task & first & self & Htask & Hhead & Hfirst & Hws & Hser
        & Hpatched & _).
  exists self. split; [|by split].
  unfold session_receive, input_boundary_receive, call_receive_messages.
  by rewrite Htask, Hhead, Hfirst, Hpatched.
Qed.

(** *** Counting disconnect signals *)

Lemma count_app t1 t2 :
  client_disconnected_count (t1 ++ t2) =
  client_disconnected_count t1 + client_disconnected_count t2.
Proof.
  unfold client_disconnected_count. by rewrite filter_app, length_app.
Qed.

Lemma count_pushes (frames : list Frame) :
  client_disconnected_count (dispatch <$> frames) = 0.
Proof.
  induction frames as [|f rest IH]; [reflexivity|].
  change (dispatch <$> f :: rest) with ([dispatch f] ++ (dispatch <$> rest)).
  rewrite count_app, IH. unfold dispatch.
  destruct (isinstance_AudioRawFrame f); reflexivity.
Qed.

Lemma count_handlers (hs : list Handler) :
  client_disconnected_count (hs ≫= handler_effects) = 0.
Proof.
  induction hs as [|h rest IH]; [reflexivity|].
  change ((h :: rest) ≫= handler_effects)
    with (handler_effects h ++ (rest ≫= handler_effects)).
  rewrite count_app, IH. destruct h; reflexivity.
Qed.

(** Claim C3, as amended.  For every connection, the receive loop of the
    input boundary raises the client-disconnected signal exactly once when
    it returns and not at all when an exception leaves it, so never more
    than once; and it returns exactly when the stream of inbound messages
    ends normally and the handling of every message returned.  An exception
    raised by the receive call, by the serializer or by a push leaves the
    loop before the signal. *)
Theorem client_disconnected_once_on_end_of_stream
    library lib ser g ws sid tok ep w w' :
  let r := session_receive library lib ser g ws sid tok ep w w' in
  client_disconnected_count (emitted r) =
    match outcome r with
    | Return _ => 1
    | Raise _ => 0
    end ∧
  (outcome r = Return () ↔
   ws_ending ws = EndOfStream ∧
   Forall (λ m, message_outcome lib ser m = Return ()) (ws_messages ws)).
Proof.
  destruct (session_receive_patched library lib ser g ws sid tok ep w)
    as (self & -> & <- & <-).
  cbv zeta.
  destruct (for_each_receive_cases lib self (ws_messages (_websocket self)))
    as [Hall|(before & message & after & e & Hmsgs & Hbefore & He)].
  - rewrite patched_receive_messages_handled by assumption. cbv zeta.
    destruct (ws_ending (_websocket self)) as [|e]; cbn [outcome emitted].
    + split; [|by split].
      rewrite count_app, count_pushes.
      change (ClientDisconnected ?x :: ?l)
        with ([ClientDisconnected x] ++ l).
      rewrite count_app, count_handlers. reflexivity.
    + split; [apply count_pushes|].
      split; [discriminate|]. intros [? _]. discriminate.
  - rewrite (patched_receive_messages_raises lib self before message after e)
      by assumption.
    cbn [outcome emitted]. split; [apply count_pushes|].
    split; [discriminate|]. intros [_ Hall]. rewrite Hmsgs in Hall.
    apply Forall_app in Hall as [_ Hall].
    apply Forall_cons in Hall as [Hm _]. congruence.
Qed.

(** Claim C3, as stated, fails: on a connection that delivers a message the
    serializer cannot parse and then closes, the exception leaves the loop
    and the signal is raised zero times, not once. *)
Lemma malformed_message_raises_no_disconnect_signal :
  let r := session_receive idle_receive_messages returning_methods
             sample_serializer sample_globals malformed_socket
             "sid" "tok" "wss://rt" initial_world initial_world in
  outcome r = Raise {| exc_class := "DecodeError";
                       exc_message := "Error parsing message" |} ∧
  client_disconnected_count (emitted r) = 0 ∧
  client_disconnected_count (emitted r) ≠ 1.
Proof. vm_compute. repeat split. discriminate. Qed.

(** *** Routing *)

Lemma dispatch_audio frame f :
  dispatch f = PushAudioFrame frame →
  f = frame ∧ isinstance_AudioRawFrame frame = true.
Proof.
  unfold dispatch. destruct (isinstance_AudioRawFrame f) eqn:E; intros H;
    inversion H; subst; auto.
Qed.

Lemma dispatch_internal frame f :
  dispatch f = InternalPushFrame frame →
  f = frame ∧ isinstance_AudioRawFrame frame = false.
Proof.
  unfold dispatch. destruct (isinstance_AudioRawFrame f) eqn:E; intros H;
    inversion H; subst; auto.
Qed.

Lemma handlers_push_nothing (hs : list Handler) ev :
  ev ∈ hs ≫= handler_effects → is_push ev = false.
Proof.
  intros H. apply list_elem_of_bind in H as (h & Hev & _).
  destruct h; cbn [handler_effects] in Hev.
  - apply list_elem_of_singleton in Hev. by subst.
  - apply elem_of_cons in Hev as [->|Hev]; [done|].
    apply list_elem_of_singleton in Hev. by subst.
Qed.

(** In any run of the function, the trace is pushes of decoded frames,
    followed by effects that are not pushes. *)
Lemma patched_receive_messages_trace lib self w :
  ∃ frames rest,
    emitted (_patched_receive_messages lib self w) =
      (dispatch <$> frames) ++ rest ∧
    Forall (λ ev, is_push ev = false) rest.
Proof.
  destruct (for_each_receive_cases lib self (ws_messages (_websocket self)))
    as [Hall|(before & message & after & e & Hmsgs & Hbefore & He)].
  - rewrite patched_receive_messages_handled by assumption. cbv zeta.
    destruct (ws_ending (_websocket self)); cbn [emitted].
    + eexists _, _. split; [reflexivity|].
      constructor; [reflexivity|].
      apply Forall_forall. intros ev Hev. by eapply handlers_push_nothing.
    + eexists _, []. split; [by rewrite app_nil_r|constructor].
  - rewrite (patched_receive_messages_raises lib self before message after e)
      by assumption.
    eexists _, []. split; [by rewrite app_nil_r|constructor].
Qed.

(** No frame is ever pushed on the path of the other kind. *)
Lemma push_in_trace lib self w ev :
  ev ∈ emitted (_patched_receive_messages lib self w) → is_push ev = true →
  ∃ frame, ev = dispatch frame.
Proof.
  destruct (patched_receive_messages_trace lib self w)
    as (frames & rest & -> & Hrest).
  intros [Hin|Hin]%elem_of_app Hpush.
  - apply list_elem_of_fmap in Hin as (frame & -> & _). eauto.
  - rewrite Forall_forall in Hrest. apply Hrest in Hin. congruence.
Qed.

(** A message the loop reaches and decodes has its frame dispatched,
    whatever happens afterwards. *)
Lemma decoded_in_trace lib self w before message after frame :
  ws_messages (_websocket self) = before ++ message :: after →
  Forall (λ m, message_outcome lib (serializer (_params self)) m = Return ())
         before →
  deserialize (serializer (_params self)) message = Return (Some frame) →
  dispatch frame ∈ emitted (_patched_receive_messages lib self w).
Proof.
  intros Hmsgs Hbefore Hd.
  assert (Hdec : decode (serializer (_params self)) message = Some frame)
    by (unfold decode; by rewrite Hd).
  assert (Hin : ∀ l, dispatch frame ∈
            dispatch <$> omap (decode (serializer (_params self)))
                              (before ++ message :: l)).
  { intros l. apply list_elem_of_fmap. exists frame. split; [done|].
    apply list_elem_of_omap. exists message. split; [|done].
    apply elem_of_app. right. left. }
  destruct (message_outcome lib (serializer (_params self)) message)
    as [[]|e] eqn:Hm.
  - destruct (for_each_receive_cases lib self after)
      as [Hall|(b2 & m2 & a2 & e & -> & Hb2 & He)].
    + rewrite patched_receive_messages_handled; cbv zeta; rewrite Hmsgs.
      * destruct (ws_ending (_websocket self)); cbn [emitted]; [|apply Hin].
        apply elem_of_app. left. apply Hin.
      * apply Forall_app. split; [done|]. by constructor.
    + rewrite (patched_receive_messages_raises lib self
                 (before ++ message :: b2) m2 a2 e).
      * cbn [emitted]. rewrite <- app_assoc. apply Hin.
      * by rewrite Hmsgs, <- app_assoc.
      * apply Forall_app. split; [done|]. by constructor.
      * done.
  - rewrite (patched_receive_messages_raises lib self before message after e)
      by assumption.
    cbn [emitted]. apply Hin.
Qed.

(** Claim C4.  For every inbound message that the receive loop of the input
    boundary reaches (the handling of every earlier message having
    returned) and that deserializes to a frame, the loop routes it by kind:
    an audio frame is pushed on the audio path and never on the internal
    path; any other frame is pushed on the internal path and never on the
    audio path. *)
Theorem receive_loop_routes_by_kind
    library lib ser g ws sid tok ep w w' before message after frame :
  ws_messages ws = before ++ message :: after →
  Forall (λ m, message_outcome lib ser m = Return ()) before →
  deserialize ser message = Return (Some frame) →
  let t := emitted (session_receive library lib ser g ws sid tok ep w w') in
  if isinstance_AudioRawFrame frame
  then PushAudioFrame frame ∈ t ∧ InternalPushFrame frame ∉ t
  else InternalPushFrame frame ∈ t ∧ PushAudioFrame frame ∉ t.
Proof.
  destruct (session_receive_patched library lib ser g ws sid tok ep w)
    as (self & -> & <- & <-).
  intros Hmsgs Hbefore Hd t.
  pose proof (decoded_in_trace lib self w' before message after frame
                Hmsgs Hbefore Hd) as Hin.
  unfold dispatch in Hin.
  destruct (isinstance_AudioRawFrame frame) eqn:E; (split; [exact Hin|]).
  - intros Hbad. apply push_in_trace in Hbad as (f & Hev); [|done].
    symmetry in Hev. apply dispatch_internal in Hev as [_ Hev]. congruence.
  - intros Hbad. apply push_in_trace in Hbad as (f & Hev); [|done].
    symmetry in Hev. apply dispatch_audio in Hev as [_ Hev]. congruence.
Qed.

Lemma receive_loop_routes_by_kind_witness :
  (let t := emitted (session_receive idle_receive_messages returning_methods
                       sample_serializer sample_globals closing_socket
                       "sid" "tok" "wss://rt" initial_world initial_world) in
   PushAudioFrame (AudioRawFrame [Byte.x10; Byte.x20] 16000 1) ∈ t ∧
   InternalPushFrame (AudioRawFrame [Byte.x10; Byte.x20] 16000 1) ∉ t) ∧
  (let t := emitted (session_receive idle_receive_messages returning_methods
                       sample_serializer sample_globals closing_socket
                       "sid" "tok" "wss://rt" initial_world initial_world) in
   InternalPushFrame (OtherFrame "TextFrame" [Byte.x68; Byte.x69]) ∈ t ∧
   PushAudioFrame (OtherFrame "TextFrame" [Byte.x68; Byte.x69]) ∉ t).
Proof.
  split.
  - apply (receive_loop_routes_by_kind idle_receive_messages
             returning_methods sample_serializer sample_globals
             closing_socket "sid" "tok" "wss://rt" initial_world
             initial_world [] audio_message [empty_message; text_message]
             (AudioRawFrame [Byte.x10; Byte.x20] 16000 1)).
    + reflexivity.
    + constructor.
    + reflexivity.
  - apply (receive_loop_routes_by_kind idle_receive_messages
             returning_methods sample_serializer sample_globals
             closing_socket "sid" "tok" "wss://rt" initial_world
             initial_world [audio_message; empty_message] text_message []
             (OtherFrame "TextFrame" [Byte.x68; Byte.x69])).
    + reflexivity.
    + repeat constructor.
    + reflexivity.
Defined.

(** *** Messages that hold no frame *)

Lemma filter_push_dispatch (frames : list Frame) :
  filter (λ ev, is_push ev = true) (dispatch <$> frames) = dispatch <$> frames.
Proof.
  induction frames as [|f rest IH]; [reflexivity|].
  rewrite fmap_cons, filter_cons_True, IH; [reflexivity|].
  unfold dispatch. destruct (isinstance_AudioRawFrame f); reflexivity.
Qed.

Lemma filter_push_handlers (hs : list Handler) :
  filter (λ ev, is_push ev = true) (hs ≫= handler_effects) = [].
Proof.
  induction hs as [|h rest IH]; [reflexivity|].
  rewrite bind_cons, filter_app, IH. destruct h; reflexivity.
Qed.

(** What can be told of a run from outside: how it ends, the pushes, and
    the number of disconnect signals. *)
Lemma patched_receive_messages_observed lib self w :
  let r := _patched_receive_messages lib self w in
  let ser := serializer (_params self) in
  let msgs := ws_messages (_websocket self) in
  (Forall (λ m, message_outcome lib ser m = Return ()) msgs ∧
   outcome r = match ws_ending (_websocket self) with
               | EndOfStream => Return ()
               | StreamError e => Raise e
               end ∧
   filter (λ ev, is_push ev = true) (emitted r)
     = dispatch <$> omap (decode ser) msgs) ∨
  (∃ before message after e,
     msgs = before ++ message :: after ∧
     Forall (λ m, message_outcome lib ser m = Return ()) before ∧
     message_outcome lib ser message = Raise e ∧
     outcome r = Raise e ∧
     filter (λ ev, is_push ev = true) (emitted r)
       = dispatch <$> omap (decode ser) (before ++ [message])).
Proof.
  cbv zeta.
  destruct (for_each_receive_cases lib self (ws_messages (_websocket self)))
    as [Hall|(before & message & after & e & Hmsgs & Hbefore & He)].
  - left. split; [done|].
    rewrite patched_receive_messages_handled by assumption. cbv zeta.
    destruct (ws_ending (_websocket self)); cbn [outcome emitted].
    + split; [done|].
      rewrite filter_app, filter_push_dispatch.
      rewrite filter_cons_False by (cbn; discriminate).
      by rewrite filter_push_handlers, app_nil_r.
    + split; [done|]. apply filter_push_dispatch.
  - right. exists before, message, after, e.
    rewrite (patched_receive_messages_raises lib self before message after e)
      by assumption.
    cbn [outcome emitted]. rewrite filter_push_dispatch. auto 10.
Qed.





(** * Further properties *)

(** ** Module start-up: edge cases *)

(** A required credential that is set to the empty string fails start-up
    exactly like a missing one. *)
Theorem empty_credential_fails_startup environ name :
  name ∈ required_credentials → environ !! name = Some "" →
  ∃ e, start environ = Crashed e ∧ exc_class e = "ValueError".
Proof.
  intros Hname Hempty. unfold start.
  destruct (module_startup environ) as [g|e] eqn:Hs.
  - apply startup_succeeds_iff in Hs
      as (d & o & e & Hd & Hd' & Ho & Ho' & He & He' & _).
    unfold required_credentials in Hname. rewrite !elem_of_cons in Hname.
    destruct Hname as [->|[->|[->|Hnil]]]; try congruence.
    by apply elem_of_nil in Hnil.
  - eauto using startup_raises_value_error.
Qed.

Lemma empty_credential_fails_startup_witness :
  ∃ e, start empty_openai_environ = Crashed e ∧ exc_class e = "ValueError".
Proof.
  apply (empty_credential_fails_startup empty_openai_environ
           "OPENAI_API_KEY").
  - unfold required_credentials. rewrite !elem_of_cons. auto.
  - vm_compute. reflexivity.
Defined.

(** The checks run in source order and the first one that fails decides the
    error: when every earlier variable is set and non-empty and this one is
    missing or empty, start-up raises the [ValueError] with this check's
    message, whatever the later variables are. *)
Theorem startup_reports_first_failing_check environ passed name msg later :
  credential_checks = passed ++ (name, msg) :: later →
  Forall (λ c, py_not (environ !! c.1) = false) passed →
  py_not (environ !! name) = true →
  start environ = Crashed (ValueError msg).
Proof.
  intros Hchecks Hpassed Hfails.
  unfold credential_checks in Hchecks. unfold start, module_startup, getenv.
  destruct passed as [|c1 [|c2 [|c3 rest]]]; simplify_list_eq.
  - by rewrite Hfails.
  - apply Forall_cons in Hpassed as [H1 _]. cbn [fst] in H1.
    by rewrite H1, Hfails.
  - apply Forall_cons in Hpassed as [H1 Hpassed].
    apply Forall_cons in Hpassed as [H2 _]. cbn [fst] in H1, H2.
    by rewrite H1, H2, Hfails.
  - by destruct rest.
Qed.

Lemma startup_reports_first_failing_check_witness :
  start deepgram_only = Crashed (ValueError "OPENAI_API_KEY").
Proof.
  apply (startup_reports_first_failing_check deepgram_only
           [("DEEPGRAM_API_KEY", "DEEPGRAM_API_KEY must be set")]
           "OPENAI_API_KEY" "OPENAI_API_KEY"
           [("ELEVENLABS_API_KEY", "ELEVENLABS_API_KEY must be set")]).
  - reflexivity.
  - repeat constructor.
  - vm_compute. reflexivity.
Defined.

(** The process serves exactly when the three variables are set to
    non-empty strings, and then its globals are the values read. *)
Theorem process_serves_iff_credentials_set environ g :
  start environ = Serving g ↔
  ∃ d o e,
    environ !! "DEEPGRAM_API_KEY" = Some d ∧ d ≠ "" ∧
    environ !! "OPENAI_API_KEY" = Some o ∧ o ≠ "" ∧
    environ !! "ELEVENLABS_API_KEY" = Some e ∧ e ≠ "" ∧
    g = {| deepgram_api_key := Some d;
           openai_api_key := Some o;
           elevenlabs_api_key := Some e |}.
Proof.
  rewrite <- startup_succeeds_iff. unfold start.
  destruct (module_startup environ); split; congruence.
Qed.

(** Start-up reads nothing but the three credentials: environments that
    agree on them start the same process. *)
Theorem startup_reads_only_credentials env1 env2 :
  Forall (λ name, env1 !! name = env2 !! name) required_credentials →
  start env1 = start env2.
Proof.
  unfold required_credentials. intros Hagree.
  apply Forall_cons in Hagree as [Hd Hagree].
  apply Forall_cons in Hagree as [Ho Hagree].
  apply Forall_cons in Hagree as [He _].
  unfold start, module_startup, getenv. by rewrite Hd, Ho, He.
Qed.

Lemma startup_reads_only_credentials_witness :
  start full_environ = start (<[ "PORT" := "8080" ]> full_environ).
Proof.
  apply (startup_reads_only_credentials full_environ
           (<[ "PORT" := "8080" ]> full_environ)).
  unfold required_credentials. repeat constructor.
Defined.

(** ** The receive loop: order, errors, the disconnect signal *)

(** The pushes of a run are always an initial part of the decoded messages,
    one push each, in arrival order; and they are all of them when the
    handling of every message returns, whichever way the stream ends. *)
Theorem receive_loop_pushes_in_order lib self w :
  let r := _patched_receive_messages lib self w in
  let ser := serializer (_params self) in
  let msgs := ws_messages (_websocket self) in
  filter (λ ev, is_push ev = true) (emitted r)
    `prefix_of` dispatch <$> omap (decode ser) msgs ∧
  (Forall (λ m, message_outcome lib ser m = Return ()) msgs →
   filter (λ ev, is_push ev = true) (emitted r)
     = dispatch <$> omap (decode ser) msgs).
Proof.
  cbv zeta.
  destruct (patched_receive_messages_observed lib self w)
    as [(Hall & _ & Hpush)
       |(before & message & after & e & Hmsgs & Hbefore & He & _ & Hpush)];
    rewrite Hpush.
  - split; [reflexivity|done].
  - split.
    + rewrite Hmsgs.
      exists (dispatch <$> omap (decode (serializer (_params self))) after).
      rewrite <- fmap_app, <- omap_app, <- app_assoc. reflexivity.
    + intros Hall. rewrite Hmsgs in Hall.
      apply Forall_app in Hall as [_ Hall].
      apply Forall_cons in Hall as [Hm _]. congruence.
Qed.

Lemma queue_calls_pushes (frames : list Frame) :
  queue_calls (dispatch <$> frames) = [].
Proof.
  induction frames as [|f rest IH]; [reflexivity|].
  rewrite fmap_cons. unfold queue_calls in *. cbn [omap list_omap].
  rewrite IH. unfold dispatch.
  destruct (isinstance_AudioRawFrame f); reflexivity.
Qed.

(** The loop stops at the first message whose handling raises, be it the
    serializer or the push: the function raises that exception, the
    messages that follow are never pushed, the disconnect signal is not
    raised and nothing is queued to the task. *)
Theorem receive_loop_stops_at_first_failure
    lib self w before message after e :
  ws_messages (_websocket self) = before ++ message :: after →
  Forall (λ m, message_outcome lib (serializer (_params self)) m = Return ())
         before →
  message_outcome lib (serializer (_params self)) message = Raise e →
  let r := _patched_receive_messages lib self w in
  outcome r = Raise e ∧
  filter (λ ev, is_push ev = true) (emitted r) =
    dispatch <$> omap (decode (serializer (_params self)))
                      (before ++ [message]) ∧
  client_disconnected_count (emitted r) = 0 ∧
  queue_calls (emitted r) = [].
Proof.
  intros Hmsgs Hbefore He. cbv zeta.
  rewrite (patched_receive_messages_raises lib self before message after e)
    by assumption.
  cbn [outcome emitted].
  rewrite filter_push_dispatch, count_pushes, queue_calls_pushes. done.
Qed.

Lemma receive_loop_stops_at_first_failure_witness :
  let r := _patched_receive_messages returning_methods
             (input_on malformed_socket) initial_world in
  outcome r = Raise {| exc_class := "DecodeError";
                       exc_message := "Error parsing message" |} ∧
  filter (λ ev, is_push ev = true) (emitted r) =
    dispatch <$> omap (decode (serializer (_params
                                 (input_on malformed_socket))))
                      ([audio_message] ++ [garbage_message]) ∧
  client_disconnected_count (emitted r) = 0 ∧
  queue_calls (emitted r) = [].
Proof.
  apply (receive_loop_stops_at_first_failure returning_methods
           (input_on malformed_socket) initial_world
           [audio_message] garbage_message [text_message]).
  - reflexivity.
  - repeat constructor.
  - reflexivity.
Defined.

(** When the function returns, its trace is the pushes of all the decoded
    messages, then the disconnect signal, then effects none of which is a
    push: nothing is pushed once the signal has been raised. *)
Theorem disconnect_signal_follows_every_push lib self w :
  outcome (_patched_receive_messages lib self w) = Return () →
  ∃ after,
    emitted (_patched_receive_messages lib self w) =
      (dispatch <$> omap (decode (serializer (_params self)))
                         (ws_messages (_websocket self)))
      ++ ClientDisconnected (_websocket self) :: after ∧
    Forall (λ ev, is_push ev = false) after.
Proof.
  destruct (for_each_receive_cases lib self (ws_messages (_websocket self)))
    as [Hall|(before & message & after & e & Hmsgs & Hbefore & He)].
  - rewrite patched_receive_messages_handled by assumption. cbv zeta.
    destruct (ws_ending (_websocket self)); cbn [outcome emitted];
      [|discriminate].
    intros _. eexists. split; [reflexivity|].
    apply Forall_forall. intros ev Hev. by eapply handlers_push_nothing.
  - rewrite (patched_receive_messages_raises lib self before message after e)
      by assumption.
    discriminate.
Qed.

Lemma disconnect_signal_follows_every_push_witness :
  ∃ after,
    emitted (_patched_receive_messages returning_methods
               (input_on closing_socket) initial_world) =
      (dispatch <$> omap (decode (serializer (_params
                                    (input_on closing_socket))))
                         (ws_messages (_websocket
                                         (input_on closing_socket))))
      ++ ClientDisconnected (_websocket (input_on closing_socket))
      :: after ∧
    Forall (λ ev, is_push ev = false) after.
Proof.
  apply (disconnect_signal_follows_every_push returning_methods
           (input_on closing_socket) initial_world).
  reflexivity.
Defined.

(** ** From disconnect to the task *)

(** After [run_bot] has set the session up (no disconnect handler being
    registered before), the receive loop of its input boundary, when it
    returns, has made exactly one call of [queue_frames], on the task that
    was handed to the runner and with the single frame [EndFrame]; when an
    exception leaves it, it has made none.  It returns exactly when the
    stream ends normally and the handling of every message returned. *)
Theorem disconnect_queues_end_frame_to_the_task
    library lib ser g ws sid tok ep w :
  registered w "on_client_disconnected" = [] →
  ∃ task,
    tasks_run (emitted (run_bot ser g ws sid tok ep w)) = [task] ∧
    let r := session_receive library lib ser g ws sid tok ep w
               (final (run_bot ser g ws sid tok ep w)) in
    queue_calls (emitted r) =
      match outcome r with
      | Return _ => [(task, [EndFrame])]
      | Raise _ => []
      end ∧
    (outcome r = Return () ↔
     ws_ending ws = EndOfStream ∧
     Forall (λ m, message_outcome lib ser m = Return ()) (ws_messages ws)).
Proof.
  intros Hnone.
  destruct (run_bot_registers ser g ws sid tok ep w) as (task & Htask & Hreg).
  exists task. split; [exact Htask|].
  destruct (session_receive_patched library lib ser g ws sid tok ep w)
    as (self & -> & <- & <-).
  cbv zeta.
  destruct (for_each_receive_cases lib self (ws_messages (_websocket self)))
    as [Hall|(before & message & after & e & Hmsgs & Hbefore & He)].
  - rewrite patched_receive_messages_handled by assumption. cbv zeta.
    rewrite Hreg, Hnone.
    destruct (ws_ending (_websocket self)); cbn [outcome emitted].
    + split; [|by split].
      unfold queue_calls. rewrite omap_app.
      fold (queue_calls
              (dispatch <$> omap (decode (serializer (_params self)))
                                 (ws_messages (_websocket self)))).
      rewrite queue_calls_pushes. reflexivity.
    + split; [apply queue_calls_pushes|].
      split; [discriminate|]. intros [? _]. discriminate.
  - rewrite (patched_receive_messages_raises lib self before message after e)
      by assumption.
    cbn [outcome emitted]. split; [apply queue_calls_pushes|].
    split; [discriminate|]. intros [_ Hall]. rewrite Hmsgs in Hall.
    apply Forall_app in Hall as [_ Hall].
    apply Forall_cons in Hall as [Hm _]. congruence.
Qed.

Lemma disconnect_queues_end_frame_to_the_task_witness :
  ∃ task,
    tasks_run (emitted (run_bot sample_serializer sample_globals
                          closing_socket "sid" "tok" "wss://rt"
                          initial_world)) = [task] ∧
    let r := session_receive idle_receive_messages returning_methods
               sample_serializer sample_globals closing_socket
               "sid" "tok" "wss://rt" initial_world
               (final (run_bot sample_serializer sample_globals
                         closing_socket "sid" "tok" "wss://rt"
                         initial_world)) in
    queue_calls (emitted r) =
      match outcome r with
      | Return _ => [(task, [EndFrame])]
      | Raise _ => []
      end ∧
    (outcome r = Return () ↔
     ws_ending closing_socket = EndOfStream ∧
     Forall (λ m, message_outcome returning_methods sample_serializer m = Return ()) (ws_messages closing_socket)).
Proof.
  apply (disconnect_queues_end_frame_to_the_task idle_receive_messages
           returning_methods sample_serializer sample_globals closing_socket
           "sid" "tok" "wss://rt" initial_world).
  reflexivity.
Defined.

(** ** What [run_bot] wires together *)

(** In a serving process every vendor service is built with the value of its
    own environment variable: the Deepgram key goes to speech-to-text, the
    OpenAI key to the language model, the ElevenLabs key to text-to-speech. *)
Theorem credentials_reach_their_services environ g ser ws sid tok ep w :
  start environ = Serving g →
  ∃ endpoint task,
    connect ser (start environ) ws sid tok ep = Some endpoint ∧
    tasks_run (emitted (endpoint w)) = [task] ∧
    services_with_role SpeechToText (task_pipeline task) =
      [DeepgramSTTService (environ !! "DEEPGRAM_API_KEY")
         {| encoding := "linear16";
            language := "en-US";
            model := "nova-2-conversationalai";
            sample_rate := 16000;
            channels := 1;
            interim_results := true;
            smart_format := true |}] ∧
    services_with_role LanguageModel (task_pipeline task) =
      [OpenAILLMService (environ !! "OPENAI_API_KEY") "gpt-4o-mini"] ∧
    services_with_role TextToSpeech (task_pipeline task) =
      [ElevenLabsTTSService (environ !! "ELEVENLABS_API_KEY")
         "29vD33N1CtxCmqQRPOHJ" "pcm_24000"].
Proof.
  intros Hserving. rewrite Hserving. cbn [connect].
  assert (Hs : module_startup environ = Return g).
  { unfold start in Hserving.
    destruct (module_startup environ); congruence. }
  apply startup_succeeds_iff in Hs
    as (d & o & e & -> & _ & -> & _ & -> & _ & ->).
  eexists _, _. split; [reflexivity|].
  rewrite websocket_endpoint_run. cbv zeta. cbn [emitted].
  split; [lazy; reflexivity|].
  split; [lazy; reflexivity|].
  split; lazy; reflexivity.
Qed.

Lemma credentials_reach_their_services_witness :
  ∃ endpoint task,
    connect sample_serializer (start full_environ) closing_socket
      "sid" "tok" "wss://rt" = Some endpoint ∧
    tasks_run (emitted (endpoint initial_world)) = [task] ∧
    services_with_role SpeechToText (task_pipeline task) =
      [DeepgramSTTService (full_environ !! "DEEPGRAM_API_KEY")
         {| encoding := "linear16";
            language := "en-US";
            model := "nova-2-conversationalai";
            sample_rate := 16000;
            channels := 1;
            interim_results := true;
            smart_format := true |}] ∧
    services_with_role LanguageModel (task_pipeline task) =
      [OpenAILLMService (full_environ !! "OPENAI_API_KEY") "gpt-4o-mini"] ∧
    services_with_role TextToSpeech (task_pipeline task) =
      [ElevenLabsTTSService (full_environ !! "ELEVENLABS_API_KEY")
         "29vD33N1CtxCmqQRPOHJ" "pcm_24000"].
Proof.
  apply (credentials_reach_their_services full_environ sample_globals
           sample_serializer closing_socket "sid" "tok" "wss://rt"
           initial_world).
  vm_compute. reflexivity.
Defined.


(** The head of the pipeline is the transport's input object after line 84:
    it reads the connection's websocket, decodes with the serializer given
    to the transport, and its receive loop is the patched one. *)
Theorem pipeline_head_runs_patched_loop ser g ws sid tok ep w :
  ∃ task first self,
    tasks_run (emitted (run_bot ser g ws sid tok ep w)) = [task] ∧
    head (processors (task_pipeline task)) = Some first ∧
    processor first = FastAPIWebsocketInputTransport self ∧
    _websocket self = ws ∧
    serializer (_params self) = ser ∧
    _receive_messages self = PatchedReceiveMessages.
Proof.
  destruct (input_boundary_of_run_bot ser g ws sid tok ep w)
    as (task & first & self & H1 & H2 & H3 & H4 & H5 & H6 & _).
  exists task, first, self. auto 10.
Qed.

(** The only output stage of the pipeline is the stand-alone
    [BaseOutputTransport] with audio output enabled; the output half of the
    websocket transport is not part of the pipeline. *)
Theorem pipeline_output_is_base_transport ser g ws sid tok ep w :
  ∃ task,
    tasks_run (emitted (run_bot ser g ws sid tok ep w)) = [task] ∧
    services_with_role OutputBoundary (task_pipeline task) =
      [BaseOutputTransport {| audio_out_enabled := true |}].
Proof. eexists. split; lazy; reflexivity. Qed.

Lemma run_bot_next_id ser g ws sid tok ep w :
  next_id (final (run_bot ser g ws sid tok ep w)) = 10 + next_id w.
Proof.
  lazy [run_bot async_with_ClientSession mbind Eff_bind mret Eff_ret
        FastAPIWebsocketTransport create_context_aggregator new
        event_handler runner_run emit patch_receive_messages
        outcome final emitted next_id event_handlers].
  reflexivity.
Qed.

(** Two sessions set up one after the other build their stages afresh: no
    stage of the first session's pipeline is a stage of the second's. *)
Theorem successive_sessions_share_no_stage
    ser g ws1 sid1 tok1 ep1 ws2 sid2 tok2 ep2 w :
  ∃ task1 task2,
    tasks_run (emitted (run_bot ser g ws1 sid1 tok1 ep1 w)) = [task1] ∧
    tasks_run
      (emitted (run_bot ser g ws2 sid2 tok2 ep2
                  (final (run_bot ser g ws1 sid1 tok1 ep1 w)))) = [task2] ∧
    Forall (λ i, i ∉ stage_id <$> processors (task_pipeline task2))
           (stage_id <$> processors (task_pipeline task1)).
Proof.
  destruct (run_bot_trace ser g ws1 sid1 tok1 ep1 w)
    as (task1 & Ht1 & Hids1 & _).
  destruct (run_bot_trace ser g ws2 sid2 tok2 ep2
              (final (run_bot ser g ws1 sid1 tok1 ep1 w)))
    as (task2 & Ht2 & Hids2 & _).
  exists task1, task2. rewrite Ht1, Ht2.
  split; [reflexivity|]. split; [reflexivity|].
  rewrite Hids1, Hids2, run_bot_next_id.
  assert (Hsmall : Forall (λ k, k ≤ 9) [1; 3; 5; 4; 7; 8; 9; 6])
    by (repeat constructor; lia).
  apply Forall_fmap, Forall_forall. intros k Hk.
  change (k + next_id w ∉
            (λ k', k' + (10 + next_id w)) <$> [1; 3; 5; 4; 7; 8; 9; 6]).
  intros (k' & Heq & _)%list_elem_of_fmap.
  rewrite Forall_forall in Hsmall. specialize (Hsmall k Hk).
  lia.
Qed.

(** ** Running the module as a script *)

(** With the credentials in place and neither [PORT] nor [WORKERS] set, the
    server is started on [0.0.0.0:3001] with one worker, without [int] ever
    seeing a string. *)
Theorem script_serves_on_defaults int_of_str environ g :
  module_startup environ = Return g →
  environ !! "PORT" = None →
  environ !! "WORKERS" = None →
  script int_of_str environ =
  Return {| uv_app := "main:app"; uv_host := "0.0.0.0";
            uv_port := 3001; uv_workers := 1 |}.
Proof.
  intros Hs Hport Hworkers.
  unfold script, main_block, getenv_default.
  rewrite Hs, Hport, Hworkers. reflexivity.
Qed.

Lemma script_serves_on_defaults_witness :
  script rejecting_int full_environ =
  Return {| uv_app := "main:app"; uv_host := "0.0.0.0";
            uv_port := 3001; uv_workers := 1 |}.
Proof.
  apply (script_serves_on_defaults rejecting_int full_environ sample_globals).
  - vm_compute. reflexivity.
  - vm_compute. reflexivity.
  - vm_compute. reflexivity.
Defined.

(** A [PORT] that is set is always handed to [int], even when it is the
    empty string: there is no fall-back to 3001, and when [int] rejects it
    the script raises that error and the server is not started, whatever
    [WORKERS] is. *)
Theorem script_rejects_bad_port int_of_str environ g s e :
  module_startup environ = Return g →
  environ !! "PORT" = Some s →
  int_of_str s = Raise e →
  script int_of_str environ = Raise e.
Proof.
  intros Hs Hport Hint.
  unfold script, main_block, getenv_default.
  rewrite Hs, Hport. cbn [int]. rewrite Hint. reflexivity.
Qed.

Lemma script_rejects_bad_port_witness :
  script rejecting_int (<[ "PORT" := "" ]> full_environ) =
  Raise (ValueError "invalid literal for int() with base 10: ").
Proof.
  apply (script_rejects_bad_port rejecting_int
           (<[ "PORT" := "" ]> full_environ) sample_globals "").
  - vm_compute. reflexivity.
  - vm_compute. reflexivity.
  - reflexivity.
Defined.

(** The credential checks come first: when a required credential is absent
    the script raises the start-up [ValueError], whatever [PORT] and
    [WORKERS] hold and whatever [int] would make of them. *)
Theorem script_checks_credentials_first int_of_str environ name :
  name ∈ required_credentials → absent environ name →
  ∃ e, script int_of_str environ = Raise e ∧
       module_startup environ = Raise e ∧
       exc_class e = "ValueError".
Proof.
  intros Hname Habs.
  destruct (absent_credential_raises environ name Hname Habs) as [e He].
  exists e. unfold script. rewrite He.
  eauto using startup_raises_value_error.
Qed.

Lemma script_checks_credentials_first_witness :
  ∃ e, script rejecting_int (<[ "PORT" := "x" ]> deepgram_only) = Raise e ∧
       module_startup (<[ "PORT" := "x" ]> deepgram_only) = Raise e ∧
       exc_class e = "ValueError".
Proof.
  apply (script_checks_credentials_first rejecting_int
           (<[ "PORT" := "x" ]> deepgram_only) "OPENAI_API_KEY").
  - unfold required_credentials. rewrite !elem_of_cons. auto.
  - vm_compute. reflexivity.
Defined.
